(** * common_utils.py: shared GUI helpers of a calibre plugin

    A shallow embedding of [src/common_utils.py] and the properties its
    specification states about it.  The host toolkit (Qt) and the host
    application (calibre) are not part of the repository: what the module
    calls in them is taken as a parameter ([Host], the [Section] variables of
    the dialogs) or written down as the enumeration constants Qt documents. *)

From Stdlib Require Import ZArith Ascii String List Bool Lia.
From stdpp Require Import gmap strings list fin_maps sorting.

Local Open Scope Z_scope.
Local Open Scope string_scope.

(** ** Python values *)

(** The Python values the module passes around: [None], booleans, integers,
    text and [bytearray] blobs. *)
Inductive pyobj : Type :=
  | PyNone
  | PyBool (b : bool)
  | PyInt (z : Z)
  | PyStr (s : string)
  | PyByteArray (data : list Byte.byte).

(** Python truthiness, as [if x:] tests it. *)
Definition truthy (v : pyobj) : bool :=
  match v with
  | PyNone => false
  | PyBool b => b
  | PyInt z => negb (Z.eqb z 0)
  | PyStr s => negb (String.eqb s "")
  | PyByteArray d => match d with [] => false | _ => true end
  end.

(** [x is None]. *)
Definition is_None (v : pyobj) : bool :=
  match v with PyNone => true | _ => false end.

(** An optional name ([None] or a [str]) is truthy when it is a non-empty
    string. *)
Definition truthy_name (n : option string) : bool :=
  match n with
  | Some s => negb (String.eqb s "")
  | None => false
  end.

(** Exceptions a call can raise. *)
Inductive pyexc : Type :=
  | AttributeError
  | KeyError (key : string)
  | TypeError
  | KeyboardInterrupt
  | OtherException (what : string).

(** The outcome of a call that returns or raises. *)
Inductive result (A : Type) : Type :=
  | Ok (a : A)
  | Raise (e : pyexc).
Arguments Ok {A} a.
Arguments Raise {A} e.

#[global] Instance result_ret : MRet result := λ A a, Ok a.
#[global] Instance result_bind : MBind result := λ A B f m,
  match m with
  | Ok a => f a
  | Raise e => Raise e
  end.
#[global] Instance result_fmap : FMap result := λ A B f m,
  match m with
  | Ok a => Ok (f a)
  | Raise e => Raise e
  end.

(** ** Strings *)

(** [s.startswith(prefix)] *)
Fixpoint startswith (s prefix : string) : bool :=
  match prefix with
  | EmptyString => true
  | String a prefix' =>
      match s with
      | EmptyString => false
      | String b s' => if Ascii.eqb a b then startswith s' prefix' else false
      end
  end.

(** The scan of [str.replace] for a non-empty [old]: left to right, every
    occurrence that does not overlap an earlier one.  [skip] counts the
    characters of the current occurrence still to drop. *)
Fixpoint replace_from (old new : string) (skip : nat) (s : string) : string :=
  match s with
  | EmptyString => EmptyString
  | String c rest =>
      match skip with
      | S k => replace_from old new k rest
      | O =>
          if startswith s old
          then new +:+ replace_from old new (String.length old - 1)%nat rest
          else String c (replace_from old new 0 rest)
      end
  end.

(** For an empty [old], Python puts [new] before every character and at
    the end. *)
Fixpoint replace_empty (new s : string) : string :=
  match s with
  | EmptyString => new
  | String c rest => new +:+ String c (replace_empty new rest)
  end.

(** [s.replace(old, new)] *)
Definition str_replace (s old new : string) : string :=
  match old with
  | EmptyString => replace_empty new s
  | String _ _ => replace_from old new 0 s
  end.

(** ** Qt enumerations *)

Module Qt.

(** [Qt::ItemFlag], with the values Qt gives them. *)
Inductive ItemFlag : Type :=
  | ItemIsSelectable
  | ItemIsEditable
  | ItemIsDragEnabled
  | ItemIsDropEnabled
  | ItemIsUserCheckable
  | ItemIsEnabled
  | ItemIsTristate
  | ItemNeverHasChildren
  | ItemIsUserTristate.

Definition flag_value (f : ItemFlag) : Z :=
  match f with
  | ItemIsSelectable => 1
  | ItemIsEditable => 2
  | ItemIsDragEnabled => 4
  | ItemIsDropEnabled => 8
  | ItemIsUserCheckable => 16
  | ItemIsEnabled => 32
  | ItemIsTristate => 64
  | ItemNeverHasChildren => 128
  | ItemIsUserTristate => 256
  end.

Definition all_flags : list ItemFlag :=
  [ItemIsSelectable; ItemIsEditable; ItemIsDragEnabled; ItemIsDropEnabled;
   ItemIsUserCheckable; ItemIsEnabled; ItemIsTristate; ItemNeverHasChildren;
   ItemIsUserTristate].

(** [flags & f], as a test. *)
Definition has_flag (flags : Z) (f : ItemFlag) : bool :=
  negb (Z.eqb (Z.land flags (flag_value f)) 0).

(** [Qt::CheckState] *)
Inductive CheckState : Type :=
  | Unchecked
  | PartiallyChecked
  | Checked.

Definition CheckState_eqb (a b : CheckState) : bool :=
  match a, b with
  | Unchecked, Unchecked => true
  | PartiallyChecked, PartiallyChecked => true
  | Checked, Checked => true
  | _, _ => false
  end.

(** The flags of a freshly constructed [QTableWidgetItem]. *)
Definition default_item_flags : Z :=
  Z.lor (flag_value ItemIsSelectable)
    (Z.lor (flag_value ItemIsEditable)
       (Z.lor (flag_value ItemIsDragEnabled)
          (Z.lor (flag_value ItemIsDropEnabled)
             (Z.lor (flag_value ItemIsUserCheckable)
                (flag_value ItemIsEnabled))))).

End Qt.

(** ** Table cell widgets *)

(** What a [QTableWidgetItem] holds, as far as this module reads or writes
    it. *)
Record QTableWidgetItem : Type := mkItem {
  item_text : string;
  item_flags : Z;
  item_checkState : Qt.CheckState
}.

(** [QTableWidgetItem.__init__(self, text)] *)
Definition QTableWidgetItem_init (text : string) : QTableWidgetItem :=
  {| item_text := text;
     item_flags := Qt.default_item_flags;
     item_checkState := Qt.Unchecked |}.

Definition setFlags (flags : Z) (it : QTableWidgetItem) : QTableWidgetItem :=
  {| item_text := item_text it;
     item_flags := flags;
     item_checkState := item_checkState it |}.

Definition setCheckState (s : Qt.CheckState) (it : QTableWidgetItem)
  : QTableWidgetItem :=
  {| item_text := item_text it;
     item_flags := item_flags it;
     item_checkState := s |}.

Module ReadOnlyTableWidgetItem.

(** [__init__(self, text)]; [text] is [None] or a string. *)
Definition init (text : option string) : QTableWidgetItem :=
  let text := match text with None => "" | Some t => t end in
  let self := QTableWidgetItem_init text in
  setFlags (Z.lor (Qt.flag_value Qt.ItemIsSelectable)
                  (Qt.flag_value Qt.ItemIsEnabled)) self.

End ReadOnlyTableWidgetItem.

Module CheckableTableWidgetItem.

(** [__init__(self, checked=False, is_tristate=False)] *)
Definition init (checked is_tristate : pyobj) : QTableWidgetItem :=
  let self := QTableWidgetItem_init "" in
  let self :=
    setFlags (Z.lor (Z.lor (Qt.flag_value Qt.ItemIsSelectable)
                           (Qt.flag_value Qt.ItemIsUserCheckable))
                    (Qt.flag_value Qt.ItemIsEnabled)) self in
  let self :=
    if truthy is_tristate
    then setFlags (Z.lor (item_flags self) (Qt.flag_value Qt.ItemIsTristate)) self
    else self in
  if truthy checked then setCheckState Qt.Checked self
  else if truthy is_tristate && is_None checked
       then setCheckState Qt.PartiallyChecked self
       else setCheckState Qt.Unchecked self.

(** The constructor called with no argument. *)
Definition init_default : QTableWidgetItem :=
  init (PyBool false) (PyBool false).

(** [get_boolean_value(self)]: [None] for a partially checked box, else
    whether it is checked. *)
Definition get_boolean_value (self : QTableWidgetItem) : pyobj :=
  if Qt.CheckState_eqb (item_checkState self) Qt.PartiallyChecked
  then PyNone
  else PyBool (Qt.CheckState_eqb (item_checkState self) Qt.Checked).

End CheckableTableWidgetItem.

(** ** Icon and pixmap resolution *)

(** What the module takes from its host: calibre's configuration folder and
    platform flag, the path functions of [os.path], and calibre's [I], which
    turns the name of a built-in image into its path. *)
Record Host : Type := mkHost {
  config_dir : string;
  iswindows : bool;
  os_path_join : string → string → string;
  os_path_normpath : string → string;
  I : string → string
}.

(** The two module-level globals. *)
Record Globals : Type := mkGlobals {
  plugin_name : option string;
  plugin_icon_resources : gmap string (list Byte.byte)
}.

(** The module as imported: no plugin name, no resources. *)
Definition initial_globals : Globals :=
  {| plugin_name := None; plugin_icon_resources := ∅ |}.

(** [set_plugin_icon_resources(name, resources)] *)
Definition set_plugin_icon_resources
    (name : option string) (resources : gmap string (list Byte.byte))
    (_ : Globals) : Globals :=
  {| plugin_name := name; plugin_icon_resources := resources |}.

(** A [QPixmap], described by what was loaded into it. *)
Inductive QPixmap : Type :=
  | PixmapFromFile (path : string)
  | PixmapFromData (data : list Byte.byte).

(** A [QIcon], described by the constructor call that made it. *)
Inductive QIcon : Type :=
  | QIcon_empty
  | QIcon_of_file (path : string)
  | QIcon_of_pixmap (pixmap : QPixmap).

(** What a lookup touches outside its arguments. *)
Inductive Access : Type :=
  | SkinFolderProbe (path : string)
  | ResourceMapProbe (name : string)
  | ResourceMapRead (name : string)
  | IconCachePath (name : string).

Definition consults_skin_or_resources (a : Access) : bool :=
  match a with
  | SkinFolderProbe _ | ResourceMapProbe _ | ResourceMapRead _ => true
  | IconCachePath _ => false
  end.

(** A value together with the accesses made while computing it. *)
Record Logged (A : Type) : Type := Log {
  value : A;
  accesses : list Access
}.
Arguments Log {A} value accesses.
Arguments value {A} _.
Arguments accesses {A} _.

#[global] Instance logged_ret : MRet Logged := λ A a, Log a [].
#[global] Instance logged_bind : MBind Logged := λ A B f m,
  let r := f (value m) in
  Log (value r) (accesses m ++ accesses r).

Definition tell (a : Access) : Logged unit := Log tt [a].

Section Icons.

Variable host : Host.
(** The paths that exist on disk. *)
Variable fs : gset string.
Variable globals : Globals.

(** [os.path.exists(path)], logged. *)
Definition os_path_exists (path : string) : Logged bool :=
  tell (SkinFolderProbe path) ;; mret (bool_decide (path ∈ fs)).

(** [I(name)], logged. *)
Definition icon_cache_path (name : string) : Logged string :=
  tell (IconCachePath name) ;; mret (I host name).

(** [name in plugin_icon_resources], logged. *)
Definition resources_contains (name : string) : Logged bool :=
  tell (ResourceMapProbe name) ;;
  mret (bool_decide (is_Some (plugin_icon_resources globals !! name))).

(** [plugin_icon_resources[name]], logged; the caller has tested the
    key. *)
Definition resources_get (name : string) : Logged (list Byte.byte) :=
  tell (ResourceMapRead name) ;;
  mret (default [] (plugin_icon_resources globals !! name)).

(** [get_local_images_dir(subfolder=None)] *)
Definition get_local_images_dir (subfolder : option string) : string :=
  let images_dir := os_path_join host (config_dir host) "resources/images" in
  let images_dir :=
    match subfolder with
    | Some sub =>
        if truthy_name subfolder then os_path_join host images_dir sub
        else images_dir
    | None => images_dir
    end in
  if iswindows host then os_path_normpath host images_dir else images_dir.

(** The path [get_pixmap] probes under the skin folder of plugin [pn]. *)
Definition local_image_path (pn icon_name : string) : string :=
  let local_images_dir := get_local_images_dir (Some pn) in
  os_path_join host local_images_dir (str_replace icon_name "images/" "").

(** There is no skin-folder image for [icon_name]: no plugin name is set,
    so that there is no skin folder, or the folder has no such file. *)
Definition no_skin_image (icon_name : string) : Prop :=
  ∀ pn, plugin_name globals = Some pn → pn ≠ "" →
        local_image_path pn icon_name ∉ fs.

(** [get_pixmap(icon_name)]; [None] is Python's [None]. *)
Definition get_pixmap (icon_name : string) : Logged (option QPixmap) :=
  if negb (startswith icon_name "images/") then
    path ← icon_cache_path icon_name;
    mret (Some (PixmapFromFile path))
  else
    skinned ←
      match plugin_name globals with
      | Some pn =>
          if truthy_name (plugin_name globals) then
            let path := local_image_path pn icon_name in
            found ← os_path_exists path;
            mret (if found : bool then Some (PixmapFromFile path) else None)
          else mret None
      | None => mret None
      end;
    match skinned with
    | Some pixmap => mret (Some pixmap)
    | None =>
        bundled ← resources_contains icon_name;
        if bundled : bool then
          data ← resources_get icon_name;
          mret (Some (PixmapFromData data))
        else mret None
    end.

(** [get_icon(icon_name)]; the argument is [None] or a string. *)
Definition get_icon (icon_name : option string) : Logged QIcon :=
  match icon_name with
  | Some name =>
      if truthy_name icon_name then
        pixmap ← get_pixmap name;
        match pixmap with
        | None =>
            path ← icon_cache_path name;
            mret (QIcon_of_file path)
        | Some pixmap => mret (QIcon_of_pixmap pixmap)
        end
      else mret QIcon_empty
  | None => mret QIcon_empty
  end.

End Icons.

(** A POSIX host, for running the definitions: [posixpath.join] on two
    components, under [/home/u/.config/calibre]. *)
Definition posix_join (a b : string) : string :=
  if startswith b "/" then b
  else if String.eqb a "" then b
  else if String.eqb (substring (String.length a - 1) 1 a) "/" then a +:+ b
  else a +:+ "/" +:+ b.

Definition posix_host : Host :=
  {| config_dir := "/home/u/.config/calibre";
     iswindows := false;
     os_path_join := posix_join;
     os_path_normpath := λ p, p;
     I := λ name, "/usr/share/calibre/images/" +:+ name |}.

(** Three worlds for the name [images/x.png] of plugin [P]: the skin file
    and the resource both present, the resource alone, neither. *)
Definition skin_file : string :=
  "/home/u/.config/calibre/resources/images/P/x.png".

Definition globals_with_resource : Globals :=
  {| plugin_name := Some "P";
     plugin_icon_resources := {["images/x.png" := [Byte.x89; Byte.x50]]} |}.

Definition globals_without_resource : Globals :=
  {| plugin_name := Some "P"; plugin_icon_resources := ∅ |}.

(** ** Library identifier *)

(** A database object, as far as [get_library_uuid] reads it: reading the
    attribute [library_id] returns a value or raises. *)
Record Database : Type := mkDatabase {
  library_id : result pyobj
}.

(** [get_library_uuid(db)]: the bare [except:] catches every exception. *)
Definition get_library_uuid (db : Database) : pyobj :=
  match library_id db with
  | Ok library_uuid => library_uuid
  | Raise _ => PyStr ""
  end.

(** ** Dialogs that remember their geometry *)

(** [gprefs.get(name, None)] on the host's preference dictionary. *)
Definition gprefs_get (gprefs : gmap string pyobj) (name : string) : pyobj :=
  default PyNone (gprefs !! name).

Section SizePersisted.

(** The window state Qt keeps for a dialog, and the four Qt calls on it
    that the class makes. *)
Variable Window : Type.
Variable saveGeometry : Window → list Byte.byte.
Variable restoreGeometry : list Byte.byte → Window → Window.
Variable sizeHint : Window → Z * Z.
Variable resize : Z * Z → Window → Window.

Record SizePersistedDialog : Type := mkDialog {
  unique_pref_name : string;
  geom : pyobj;
  window : Window
}.

(** [__init__(self, parent, unique_pref_name)]; [w0] is the window
    [QDialog.__init__] creates. *)
Definition SizePersistedDialog_init
    (w0 : Window) (name : string) (gprefs : gmap string pyobj)
  : SizePersistedDialog :=
  {| unique_pref_name := name;
     geom := gprefs_get gprefs name;
     window := w0 |}.

(** [resize_dialog(self)]; Qt's [restoreGeometry] takes bytes only. *)
Definition resize_dialog (self : SizePersistedDialog)
  : result SizePersistedDialog :=
  match geom self with
  | PyNone =>
      Ok {| unique_pref_name := unique_pref_name self;
            geom := geom self;
            window := resize (sizeHint (window self)) (window self) |}
  | PyByteArray blob =>
      Ok {| unique_pref_name := unique_pref_name self;
            geom := geom self;
            window := restoreGeometry blob (window self) |}
  | PyBool _ | PyInt _ | PyStr _ => Raise TypeError
  end.

(** [dialog_closing(self, result)], the slot of the [finished] signal. *)
Definition dialog_closing
    (self : SizePersistedDialog) (gprefs : gmap string pyobj)
  : gmap string pyobj :=
  let geom := PyByteArray (saveGeometry (window self)) in
  <[unique_pref_name self := geom]> gprefs.

End SizePersisted.

Arguments unique_pref_name {Window} _.
Arguments geom {Window} _.
Arguments window {Window} _.
Arguments mkDialog {Window} _ _ _.
Arguments SizePersistedDialog_init {Window} w0 name gprefs.
Arguments resize_dialog {Window} restoreGeometry sizeHint resize self.
Arguments dialog_closing {Window} saveGeometry self gprefs.

(** A toolkit to run the definitions with: the window is a rectangle of
    four byte-sized numbers (x, y, width, height), serialized as those four
    bytes. *)
Module SampleToolkit.

Record Window : Type := mkWindow {
  win_x : Byte.byte;
  win_y : Byte.byte;
  win_width : Byte.byte;
  win_height : Byte.byte
}.

Definition byte_of_Z (z : Z) : Byte.byte :=
  default Byte.x00 (Byte.of_nat (Z.to_nat (z mod 256))).

Definition saveGeometry (w : Window) : list Byte.byte :=
  [win_x w; win_y w; win_width w; win_height w].

Definition restoreGeometry (blob : list Byte.byte) (w : Window) : Window :=
  match blob with
  | [x; y; wd; ht] => mkWindow x y wd ht
  | _ => w
  end.

Definition sizeHint (_ : Window) : Z * Z := (64, 48).

Definition resize (size : Z * Z) (w : Window) : Window :=
  mkWindow (win_x w) (win_y w) (byte_of_Z size.1) (byte_of_Z size.2).

End SampleToolkit.

(** ** Preferences viewer *)

(** [del prefs[k]]: a missing key raises [KeyError]. *)
Definition delitem (k : string) (prefs : gmap string pyobj)
  : result (gmap string pyobj) :=
  match prefs !! k with
  | Some _ => Ok (delete k prefs)
  | None => Raise (KeyError k)
  end.

(** [for k in keys: del prefs[k]] *)
Fixpoint delete_all (keys : list string) (prefs : gmap string pyobj)
  : result (gmap string pyobj) :=
  match keys with
  | [] => Ok prefs
  | k :: keys' => prefs' ← delitem k prefs; delete_all keys' prefs'
  end.

(** [s[n:]] *)
Fixpoint str_drop (n : nat) (s : string) : string :=
  match n, s with
  | O, _ => s
  | S n', String _ s' => str_drop n' s'
  | S _, EmptyString => EmptyString
  end.

Module PrefsViewerDialog.

(** The dialog, as far as [_clear_settings] reads or writes it: its
    namespace, the per-library store [db.prefs], the list widget, and
    what it asked of the host ([close], [gui.quit(restart=True)]). *)
Record t : Type := mk {
  namespace : string;
  db_prefs : gmap string pyobj;
  keys_list : list string;
  closed : bool;
  quit_restart : bool
}.

(** [_get_ns_prefix(self)] *)
Definition _get_ns_prefix (self : t) : string :=
  "namespaced:" +:+ namespace self +:+ ":".

(** [six.iterkeys(self.db.prefs)]; the order of a [gmap] stands for the
    dictionary's, on which neither method below depends. *)
Definition iterkeys (prefs : gmap string pyobj) : list string :=
  (map_to_list prefs).*1.

(** [_populate_settings(self)] *)
Definition _populate_settings (self : t) : t :=
  let ns_prefix := _get_ns_prefix self in
  let keys :=
    merge_sort (λ a b, Is_true (String.leb a b))
      (map (str_drop (String.length ns_prefix))
           (filter (λ k, startswith k ns_prefix = true)
                   (iterkeys (db_prefs self)))) in
  {| namespace := namespace self;
     db_prefs := db_prefs self;
     keys_list := keys;
     closed := closed self;
     quit_restart := quit_restart self |}.

(** [_clear_settings(self)].  [confirmed] is the answer to the
    confirmation prompt, [restart_clicked] whether the user pressed
    "Restart calibre now" in the information dialog. *)
Definition _clear_settings (confirmed restart_clicked : bool) (self : t)
  : result t :=
  if negb confirmed then Ok self
  else
    let ns_prefix := _get_ns_prefix self in
    let keys :=
      filter (λ k, startswith k ns_prefix = true)
             (iterkeys (db_prefs self)) in
    prefs' ← delete_all keys (db_prefs self);
    let self :=
      _populate_settings
        {| namespace := namespace self;
           db_prefs := prefs';
           keys_list := keys_list self;
           closed := closed self;
           quit_restart := quit_restart self |} in
    Ok {| namespace := namespace self;
          db_prefs := db_prefs self;
          keys_list := keys_list self;
          closed := true;
          quit_restart := if restart_clicked then true else quit_restart self |}.

End PrefsViewerDialog.

(** A viewer over a store with two keys of the namespace [EpubSplit], one
    of another namespace that begins alike, and one outside any namespace. *)
Definition sample_viewer : PrefsViewerDialog.t :=
  {| PrefsViewerDialog.namespace := "EpubSplit";
     PrefsViewerDialog.db_prefs :=
       <["namespaced:EpubSplit:options" := PyStr "{}"]>
         (<["namespaced:EpubSplit:" := PyNone]>
            (<["namespaced:EpubSplitX:options" := PyInt 2]>
               (<["field_metadata" := PyInt 3]> ∅)));
     PrefsViewerDialog.keys_list := ["" ; "options"];
     PrefsViewerDialog.closed := false;
     PrefsViewerDialog.quit_restart := false |}.

(** ** Busy cursor *)

(** [Qt::CursorShape], as far as the module names it. *)
Inductive CursorShape : Type :=
  | ArrowCursor
  | WaitCursor
  | OtherCursor (shape : Z).

(** [QApplication.setOverrideCursor]: the application keeps a stack of
    override cursors. *)
Definition setOverrideCursor
    (c : CursorShape) (stack : list CursorShape) : list CursorShape :=
  c :: stack.

(** [QApplication.restoreOverrideCursor]: pops the stack, and does nothing
    on an empty one. *)
Definition restoreOverrideCursor (stack : list CursorShape)
  : list CursorShape :=
  match stack with
  | [] => []
  | _ :: below => below
  end.

(** [with busy_cursor(): body].  The body returns or raises, and leaves
    some cursor stack; the [finally] clause runs in both cases and the
    context manager lets an exception through. *)
Definition busy_cursor {A : Type}
    (body : list CursorShape → result A * list CursorShape)
    (stack : list CursorShape) : result A * list CursorShape :=
  let stack := setOverrideCursor WaitCursor stack in
  let '(outcome, stack) := body stack in
  (outcome, restoreOverrideCursor stack).

(** A block of code that leaves the override cursors as it found them. *)
Definition cursor_balanced {A : Type}
    (body : list CursorShape → result A * list CursorShape) : Prop :=
  ∀ stack, (body stack).2 = stack.

(** ** Image and title layout *)

(** A [QLabel], as far as the layout sets it up. *)
Record QLabel : Type := mkLabel {
  label_text : string;
  label_pixmap : option QPixmap;
  label_maximumSize : option (Z * Z);
  label_scaledContents : bool;
  label_pointSize : option Z
}.

(** [QLabel(parent)] and [QLabel(text, parent)] *)
Definition QLabel_init (text : string) : QLabel :=
  {| label_text := text;
     label_pixmap := None;
     label_maximumSize := None;
     label_scaledContents := false;
     label_pointSize := None |}.

Definition setPixmap (p : QPixmap) (l : QLabel) : QLabel :=
  {| label_text := label_text l;
     label_pixmap := Some p;
     label_maximumSize := label_maximumSize l;
     label_scaledContents := label_scaledContents l;
     label_pointSize := label_pointSize l |}.

Definition setMaximumSize (w h : Z) (l : QLabel) : QLabel :=
  {| label_text := label_text l;
     label_pixmap := label_pixmap l;
     label_maximumSize := Some (w, h);
     label_scaledContents := label_scaledContents l;
     label_pointSize := label_pointSize l |}.

Definition setScaledContents (b : bool) (l : QLabel) : QLabel :=
  {| label_text := label_text l;
     label_pixmap := label_pixmap l;
     label_maximumSize := label_maximumSize l;
     label_scaledContents := b;
     label_pointSize := label_pointSize l |}.

(** [setFont] with a font of the given point size. *)
Definition setFont_pointSize (size : Z) (l : QLabel) : QLabel :=
  {| label_text := label_text l;
     label_pixmap := label_pixmap l;
     label_maximumSize := label_maximumSize l;
     label_scaledContents := label_scaledContents l;
     label_pointSize := Some size |}.

(** What a [QHBoxLayout] holds, left to right. *)
Inductive LayoutItem : Type :=
  | ItemWidget (w : QLabel)
  | ItemStretch.

Definition addWidget (w : QLabel) (items : list LayoutItem)
  : list LayoutItem :=
  (items ++ [ItemWidget w])%list.

(** [insertStretch(index)]: a negative index appends. *)
Definition insertStretch (index : Z) (items : list LayoutItem)
  : list LayoutItem :=
  if Z.ltb index 0 then (items ++ [ItemStretch])%list
  else (take (Z.to_nat index) items ++ ItemStretch
          :: drop (Z.to_nat index) items)%list.

Module ImageTitleLayout.

(** [__init__(self, parent, icon_name, title)] *)
Definition init (host : Host) (fs : gset string) (globals : Globals)
    (icon_name title : string) : Logged (list LayoutItem) :=
  let self := [] in
  let title_image_label := QLabel_init "" in
  pixmap ← get_pixmap host fs globals icon_name;
  title_image_label ←
    match pixmap with
    | None =>
        _ ← get_pixmap host fs globals "library.png";
        mret title_image_label
    | Some pixmap => mret (setPixmap pixmap title_image_label)
    end;
  let title_image_label := setMaximumSize 32 32 title_image_label in
  let title_image_label := setScaledContents true title_image_label in
  let self := addWidget title_image_label self in
  let shelf_label := QLabel_init title in
  let shelf_label := setFont_pointSize 16 shelf_label in
  let self := addWidget shelf_label self in
  mret (insertStretch (-1) self).

End ImageTitleLayout.

(** ** Keyboard shortcut dialog *)

(** [QDialog::DialogCode] *)
Inductive DialogCode : Type :=
  | Rejected
  | Accepted.

Section KeyboardConfig.

(** The window toolkit, as for [SizePersistedDialog], and calibre's
    shortcut editor: the widget state, the keyboard registry of the main
    window, and the three calls the dialog makes on the widget. *)
Variable Window : Type.
Variable saveGeometry : Window → list Byte.byte.
Variable restoreGeometry : list Byte.byte → Window → Window.
Variable sizeHint : Window → Z * Z.
Variable resize : Z * Z → Window → Window.
Variable ShortcutConfig : Type.
Variable Keyboard : Type.
Variable ShortcutConfig_new : ShortcutConfig.
Variable ShortcutConfig_initialize : Keyboard → ShortcutConfig → ShortcutConfig.
Variable ShortcutConfig_highlight_group : string → ShortcutConfig → ShortcutConfig.
Variable ShortcutConfig_commit : ShortcutConfig → Keyboard → Keyboard.

(** What the dialog acts on outside itself: the preference dictionary and
    the keyboard registry. *)
Record AppState : Type := mkApp {
  app_gprefs : gmap string pyobj;
  app_keyboard : Keyboard
}.

Record KeyboardConfigDialog : Type := mkKeyboardDialog {
  kb_base : SizePersistedDialog Window;
  kb_widget : ShortcutConfig;
  kb_group_name : string;
  kb_result : option DialogCode
}.

(** [initialize(self)] *)
Definition KeyboardConfigDialog_initialize
    (app : AppState) (self : KeyboardConfigDialog) : KeyboardConfigDialog :=
  let widget := ShortcutConfig_initialize (app_keyboard app) (kb_widget self) in
  let widget := ShortcutConfig_highlight_group (kb_group_name self) widget in
  {| kb_base := kb_base self;
     kb_widget := widget;
     kb_group_name := kb_group_name self;
     kb_result := kb_result self |}.

(** [__init__(self, gui, group_name)]; [w0] is the window the layout
    calls have produced when [resize_dialog] runs. *)
Definition KeyboardConfigDialog_init
    (w0 : Window) (app : AppState) (group_name : string)
  : result KeyboardConfigDialog :=
  let base :=
    SizePersistedDialog_init w0 "Keyboard shortcut dialog" (app_gprefs app) in
  base ← resize_dialog restoreGeometry sizeHint resize base;
  let self :=
    {| kb_base := base;
       kb_widget := ShortcutConfig_new;
       kb_group_name := group_name;
       kb_result := None |} in
  Ok (KeyboardConfigDialog_initialize app self).

(** [QDialog.done(code)]: sets the result code and emits [finished], to
    which [SizePersistedDialog.__init__] has connected [dialog_closing]. *)
Definition KeyboardConfigDialog_done
    (code : DialogCode) (self : KeyboardConfigDialog) (app : AppState)
  : KeyboardConfigDialog * AppState :=
  ({| kb_base := kb_base self;
      kb_widget := kb_widget self;
      kb_group_name := kb_group_name self;
      kb_result := Some code |},
   {| app_gprefs := dialog_closing saveGeometry (kb_base self) (app_gprefs app);
      app_keyboard := app_keyboard app |}).

(** [reject()], the slot of the Cancel button. *)
Definition KeyboardConfigDialog_reject
    (self : KeyboardConfigDialog) (app : AppState)
  : KeyboardConfigDialog * AppState :=
  KeyboardConfigDialog_done Rejected self app.

(** [commit(self)], the slot of the OK button. *)
Definition KeyboardConfigDialog_commit
    (self : KeyboardConfigDialog) (app : AppState)
  : KeyboardConfigDialog * AppState :=
  let app :=
    {| app_gprefs := app_gprefs app;
       app_keyboard := ShortcutConfig_commit (kb_widget self) (app_keyboard app) |} in
  KeyboardConfigDialog_done Accepted self app.

End KeyboardConfig.

Arguments mkApp {Keyboard} _ _.
Arguments app_gprefs {Keyboard} _.
Arguments app_keyboard {Keyboard} _.
Arguments mkKeyboardDialog {Window ShortcutConfig} _ _ _ _.
Arguments kb_base {Window ShortcutConfig} _.
Arguments kb_widget {Window ShortcutConfig} _.
Arguments kb_group_name {Window ShortcutConfig} _.
Arguments kb_result {Window ShortcutConfig} _.
Arguments KeyboardConfigDialog_initialize {Window ShortcutConfig Keyboard}
  ShortcutConfig_initialize ShortcutConfig_highlight_group app self.
Arguments KeyboardConfigDialog_init {Window} restoreGeometry sizeHint resize
  {ShortcutConfig Keyboard} ShortcutConfig_new ShortcutConfig_initialize
  ShortcutConfig_highlight_group w0 app group_name.
Arguments KeyboardConfigDialog_done {Window} saveGeometry
  {ShortcutConfig Keyboard} code self app.
Arguments KeyboardConfigDialog_reject {Window} saveGeometry
  {ShortcutConfig Keyboard} self app.
Arguments KeyboardConfigDialog_commit {Window} saveGeometry
  {ShortcutConfig Keyboard} ShortcutConfig_commit self app.

(** A shortcut editor to run the definitions with: the registry maps
    action names to key sequences, the widget holds the edited copy and the
    highlighted group. *)
Module SampleShortcuts.

Definition Keyboard : Type := list (string * string).

Record ShortcutConfig : Type := mkWidget {
  edited : list (string * string);
  highlighted : string
}.

Definition new : ShortcutConfig := mkWidget [] "".

Definition initialize (k : Keyboard) (w : ShortcutConfig) : ShortcutConfig :=
  mkWidget k (highlighted w).

Definition highlight_group (g : string) (w : ShortcutConfig)
  : ShortcutConfig :=
  mkWidget (edited w) g.

Definition commit (w : ShortcutConfig) (_ : Keyboard) : Keyboard := edited w.

End SampleShortcuts.

(** ** Preferences viewer: showing a value *)

Section CurrentRow.

(** calibre's [DBPrefs.get_namespaced(namespace, key, default)] and
    [DBPrefs.to_raw(val)]. *)
Variable get_namespaced : gmap string pyobj → string → string → pyobj → pyobj.
Variable to_raw : pyobj → string.


End CurrentRow.



(** [':' not in s] *)
Fixpoint no_colon (s : string) : bool :=
  match s with
  | EmptyString => true
  | String c s' => negb (Ascii.eqb c ":") && no_colon s'
  end.

(** [old in s], for a non-empty [old]. *)
Fixpoint str_contains (s old : string) : bool :=
  match s with
  | EmptyString => false
  | String _ rest => startswith s old || str_contains rest old
  end.

(** * Properties *)

(** ** Table cell widgets *)

Lemma flag_value_has_flag_33 (f : Qt.ItemFlag) :
  Qt.has_flag 33 f = true ↔ f = Qt.ItemIsSelectable ∨ f = Qt.ItemIsEnabled.
Proof.
  destruct f; cbn; split; intros H; try discriminate; auto;
    destruct H as [H | H]; discriminate H.
Qed.

Lemma testbit_33 (i : Z) : Z.testbit 33 i = true ↔ i = 0 ∨ i = 5.
Proof.
  split.
  - intros H.
    destruct (Z_lt_dec i 0) as [Hneg | Hnn].
    { rewrite Z.testbit_neg_r in H by lia. discriminate. }
    destruct (Z_le_dec 6 i) as [Hbig | Hsmall].
    { rewrite Z.bits_above_log2 in H; [discriminate | lia |].
      change (Z.log2 33) with 5. lia. }
    assert (i = 0 ∨ i = 1 ∨ i = 2 ∨ i = 3 ∨ i = 4 ∨ i = 5) as Hi by lia.
    destruct Hi as [-> | [-> | [-> | [-> | [-> | ->]]]]];
      auto; cbn in H; discriminate.
  - intros [-> | ->]; reflexivity.
Qed.

(** C10: a read-only item built from [None] shows the empty string (and one
    built from a string shows that string); whatever the text, its flags are
    exactly selectable and enabled: 33 as a bit mask, bits 0 and 5 and no
    other, so neither the editable nor the user-checkable flag is set. *)
Theorem readonly_item_text_and_flags :
  item_text (ReadOnlyTableWidgetItem.init None) = ""
  ∧ (∀ s : string, item_text (ReadOnlyTableWidgetItem.init (Some s)) = s)
  ∧ ∀ text : option string,
      let it := ReadOnlyTableWidgetItem.init text in
      item_flags it
      = Z.lor (Qt.flag_value Qt.ItemIsSelectable) (Qt.flag_value Qt.ItemIsEnabled)
      ∧ (∀ f, Qt.has_flag (item_flags it) f = true
              ↔ f = Qt.ItemIsSelectable ∨ f = Qt.ItemIsEnabled)
      ∧ (∀ i, Z.testbit (item_flags it) i = true ↔ i = 0 ∨ i = 5)
      ∧ Qt.has_flag (item_flags it) Qt.ItemIsEditable = false
      ∧ Qt.has_flag (item_flags it) Qt.ItemIsUserCheckable = false.
Proof.
  split; [reflexivity |].
  split; [reflexivity |].
  intros text it.
  assert (item_flags it = 33) as Hflags by (destruct text; reflexivity).
  refine (conj _ (conj _ (conj _ (conj _ _)))).
  - rewrite Hflags. reflexivity.
  - intros f. rewrite Hflags. apply flag_value_has_flag_33.
  - intros i. rewrite Hflags. apply testbit_33.
  - rewrite Hflags. reflexivity.
  - rewrite Hflags. reflexivity.
Qed.

(** C3: a checkable item constructed with [checked=True] reports [True],
    tristate or not; one constructed with a true [is_tristate] and
    [checked=None] reports [None]; one constructed with the default
    arguments reports [False]. *)
Theorem checkable_item_boolean_value :
  (∀ is_tristate : pyobj,
     CheckableTableWidgetItem.get_boolean_value
       (CheckableTableWidgetItem.init (PyBool true) is_tristate) = PyBool true)
  ∧ CheckableTableWidgetItem.get_boolean_value
      (CheckableTableWidgetItem.init PyNone (PyBool true)) = PyNone
  ∧ CheckableTableWidgetItem.get_boolean_value
      CheckableTableWidgetItem.init_default = PyBool false.
Proof.
  refine (conj _ (conj _ _)).
  - intros is_tristate.
    unfold CheckableTableWidgetItem.init. cbn.
    destruct (truthy is_tristate); reflexivity.
  - reflexivity.
  - reflexivity.
Qed.

(** ** Library identifier *)

(** C7: [get_library_uuid] returns the database's [library_id] when
    reading it succeeds, and the empty string when reading it raises,
    whatever the exception; it never raises itself. *)
Theorem get_library_uuid_absorbs_failure (db : Database) :
  (∀ v, library_id db = Ok v → get_library_uuid db = v)
  ∧ (∀ e, library_id db = Raise e → get_library_uuid db = PyStr "").
Proof.
  unfold get_library_uuid.
  split; intros x Hx; rewrite Hx; reflexivity.
Qed.

Lemma get_library_uuid_absorbs_failure_witness :
  get_library_uuid {| library_id := Ok (PyStr "8c3f-11") |} = PyStr "8c3f-11"
  ∧ get_library_uuid {| library_id := Raise AttributeError |} = PyStr "".
Proof.
  split.
  - apply (get_library_uuid_absorbs_failure
             {| library_id := Ok (PyStr "8c3f-11") |}).
    reflexivity.
  - apply (proj2 (get_library_uuid_absorbs_failure
                    {| library_id := Raise AttributeError |})
             AttributeError).
    reflexivity.
Defined.

(** ** Icon and pixmap resolution *)

Lemma value_bind {A B} (m : Logged A) (f : A → Logged B) :
  value (m ≫= f) = value (f (value m)).
Proof. reflexivity. Qed.

Lemma accesses_bind {A B} (m : Logged A) (f : A → Logged B) :
  accesses (m ≫= f) = (accesses m ++ accesses (f (value m)))%list.
Proof. reflexivity. Qed.

Lemma truthy_name_Some (s : string) :
  truthy_name (Some s) = true ↔ s ≠ "".
Proof.
  cbn. destruct (String.eqb_spec s ""); cbn; split; intros; congruence.
Qed.

Lemma startswith_nonempty (s : string) :
  startswith s "images/" = true → s ≠ "".
Proof. intros H ->. discriminate. Qed.

Section IconProperties.

Variable host : Host.
Variable fs : gset string.
Variable globals : Globals.

Lemma get_pixmap_skin (icon_name pn : string) :
  startswith icon_name "images/" = true →
  plugin_name globals = Some pn → pn ≠ "" →
  local_image_path host pn icon_name ∈ fs →
  value (get_pixmap host fs globals icon_name)
  = Some (PixmapFromFile (local_image_path host pn icon_name)).
Proof.
  intros Hpre Hpn Hne Hin.
  unfold get_pixmap. rewrite Hpre, Hpn. cbn [negb].
  apply truthy_name_Some in Hne. rewrite Hne.
  rewrite !value_bind. cbn.
  rewrite bool_decide_eq_true_2 by exact Hin. reflexivity.
Qed.

Lemma get_pixmap_no_skin (icon_name : string) :
  startswith icon_name "images/" = true →
  no_skin_image host fs globals icon_name →
  value (get_pixmap host fs globals icon_name)
  = PixmapFromData <$> (plugin_icon_resources globals !! icon_name).
Proof.
  intros Hpre Hskin.
  unfold get_pixmap. rewrite Hpre. cbn [negb].
  assert (∀ k : option QPixmap → Logged (option QPixmap),
            value
              (match plugin_name globals with
               | Some pn =>
                   if truthy_name (plugin_name globals) then
                     let path := local_image_path host pn icon_name in
                     found ← os_path_exists fs path;
                     mret (if found : bool
                           then Some (PixmapFromFile path) else None)
                   else mret None
               | None => mret None
               end ≫= k) = value (k None)) as Hskip.
  { intros k. rewrite value_bind. f_equal. f_equal.
    destruct (plugin_name globals) as [pn |] eqn:Hpn; [| reflexivity].
    destruct (truthy_name (Some pn)) eqn:Ht; [| reflexivity].
    apply truthy_name_Some in Ht.
    cbn. rewrite bool_decide_eq_false_2; [reflexivity |].
    apply Hskin; [exact Hpn | exact Ht]. }
  rewrite Hskip. rewrite value_bind. cbn.
  destruct (plugin_icon_resources globals !! icon_name) as [data |] eqn:Hres.
  - rewrite bool_decide_eq_true_2 by (eexists; reflexivity). reflexivity.
  - rewrite bool_decide_eq_false_2; [reflexivity |].
    intros [x Hx]. discriminate.
Qed.

Lemma get_icon_of_pixmap (icon_name : string) :
  icon_name ≠ "" →
  value (get_icon host fs globals (Some icon_name))
  = match value (get_pixmap host fs globals icon_name) with
    | None => QIcon_of_file (I host icon_name)
    | Some pixmap => QIcon_of_pixmap pixmap
    end.
Proof.
  intros Hne. unfold get_icon.
  apply truthy_name_Some in Hne. rewrite Hne.
  rewrite value_bind.
  destruct (value (get_pixmap host fs globals icon_name)); reflexivity.
Qed.

End IconProperties.

(** C1: for an icon name under ['images/'], [get_icon] returns the image
    of the plugin's skin folder when that file exists on disk (also when the
    resource map has the name too); with no such file, the bundled resource
    of that name; and with neither, the host's icon for the name. *)
Theorem get_icon_priority
    (host : Host) (fs : gset string) (globals : Globals) (icon_name : string) :
  startswith icon_name "images/" = true →
  (∀ pn, plugin_name globals = Some pn → pn ≠ "" →
         local_image_path host pn icon_name ∈ fs →
         value (get_icon host fs globals (Some icon_name))
         = QIcon_of_pixmap (PixmapFromFile (local_image_path host pn icon_name)))
  ∧ (no_skin_image host fs globals icon_name →
     ∀ data, plugin_icon_resources globals !! icon_name = Some data →
             value (get_icon host fs globals (Some icon_name))
             = QIcon_of_pixmap (PixmapFromData data))
  ∧ (no_skin_image host fs globals icon_name →
     plugin_icon_resources globals !! icon_name = None →
     value (get_icon host fs globals (Some icon_name))
     = QIcon_of_file (I host icon_name)).
Proof.
  intros Hpre.
  pose proof (startswith_nonempty _ Hpre) as Hne.
  refine (conj _ (conj _ _)).
  - intros pn Hpn Hpn_ne Hin.
    rewrite get_icon_of_pixmap by exact Hne.
    rewrite (get_pixmap_skin host fs globals icon_name pn) by assumption.
    reflexivity.
  - intros Hskin data Hres.
    rewrite get_icon_of_pixmap by exact Hne.
    rewrite get_pixmap_no_skin by assumption.
    rewrite Hres. reflexivity.
  - intros Hskin Hres.
    rewrite get_icon_of_pixmap by exact Hne.
    rewrite get_pixmap_no_skin by assumption.
    rewrite Hres. reflexivity.
Qed.

Lemma no_skin_image_empty_fs (host : Host) (globals : Globals) (name : string) :
  no_skin_image host ∅ globals name.
Proof. intros pn _ _. apply not_elem_of_empty. Defined.

Lemma get_icon_priority_witness :
  value (get_icon posix_host {[skin_file]} globals_with_resource
           (Some "images/x.png"))
  = QIcon_of_pixmap (PixmapFromFile skin_file)
  ∧ value (get_icon posix_host ∅ globals_with_resource (Some "images/x.png"))
    = QIcon_of_pixmap (PixmapFromData [Byte.x89; Byte.x50])
  ∧ value (get_icon posix_host ∅ globals_without_resource (Some "images/x.png"))
    = QIcon_of_file "/usr/share/calibre/images/images/x.png".
Proof.
  refine (conj _ (conj _ _)).
  - apply (proj1 (get_icon_priority posix_host {[skin_file]}
                    globals_with_resource "images/x.png" eq_refl) "P").
    + reflexivity.
    + discriminate.
    + apply elem_of_singleton. reflexivity.
  - apply (proj1 (proj2 (get_icon_priority posix_host ∅
                           globals_with_resource "images/x.png" eq_refl))).
    + apply no_skin_image_empty_fs.
    + reflexivity.
  - apply (proj2 (proj2 (get_icon_priority posix_host ∅
                           globals_without_resource "images/x.png" eq_refl))).
    + apply no_skin_image_empty_fs.
    + reflexivity.
Defined.

Example str_replace_every_occurrence :
  str_replace "images/images/x.png" "images/" "" = "x.png".
Proof. reflexivity. Qed.

Example local_image_path_sample :
  local_image_path posix_host "P" "images/x.png" = skin_file.
Proof. reflexivity. Qed.

(** Before [set_plugin_icon_resources] is called there is no plugin name,
    hence no skin folder to probe: the lookup goes to the resource map and
    then to the host, whatever the disk holds. *)
Example get_icon_without_plugin_name :
  get_icon posix_host {[skin_file]} initial_globals (Some "images/x.png")
  = Log (QIcon_of_file "/usr/share/calibre/images/images/x.png")
      [ResourceMapProbe "images/x.png"; IconCachePath "images/x.png"].
Proof. vm_compute. reflexivity. Qed.

(** C5: for an icon name under ['images/'] that has no file in the skin
    folder and no entry in the resource map, [get_pixmap] returns [None]. *)
Theorem get_pixmap_absent
    (host : Host) (fs : gset string) (globals : Globals) (icon_name : string) :
  startswith icon_name "images/" = true →
  no_skin_image host fs globals icon_name →
  plugin_icon_resources globals !! icon_name = None →
  value (get_pixmap host fs globals icon_name) = None.
Proof.
  intros Hpre Hskin Hres.
  rewrite get_pixmap_no_skin by assumption.
  rewrite Hres. reflexivity.
Qed.

Lemma get_pixmap_absent_witness :
  value (get_pixmap posix_host {["/tmp/other.png"]} globals_without_resource
           "images/x.png") = None.
Proof.
  apply get_pixmap_absent.
  - reflexivity.
  - intros pn Hpn _. injection Hpn as <-.
    intros Hin. apply elem_of_singleton in Hin. discriminate Hin.
  - reflexivity.
Defined.

(** C6: for an icon name that does not start with ['images/'],
    [get_pixmap] returns the pixmap loaded from the host's path for that
    name; the only access it makes is that path lookup, so it probes neither
    the skin folder nor the resource map, and the result is the same for
    every disk content, plugin name and resource map. *)
Theorem get_pixmap_host_icon
    (host : Host) (fs : gset string) (globals : Globals) (icon_name : string) :
  startswith icon_name "images/" = false →
  get_pixmap host fs globals icon_name
  = Log (Some (PixmapFromFile (I host icon_name))) [IconCachePath icon_name]
  ∧ forallb (λ a, negb (consults_skin_or_resources a))
      (accesses (get_pixmap host fs globals icon_name)) = true
  ∧ ∀ fs' globals',
      get_pixmap host fs' globals' icon_name
      = get_pixmap host fs globals icon_name.
Proof.
  intros Hpre.
  assert (∀ fs' globals',
            get_pixmap host fs' globals' icon_name
            = Log (Some (PixmapFromFile (I host icon_name)))
                [IconCachePath icon_name]) as Hall.
  { intros fs' globals'. unfold get_pixmap. rewrite Hpre. reflexivity. }
  refine (conj (Hall _ _) (conj _ _)).
  - rewrite Hall. reflexivity.
  - intros fs' globals'. rewrite !Hall. reflexivity.
Qed.

Lemma get_pixmap_host_icon_witness :
  get_pixmap posix_host {[skin_file]} globals_with_resource "trash.png"
  = Log (Some (PixmapFromFile "/usr/share/calibre/images/trash.png"))
      [IconCachePath "trash.png"].
Proof.
  apply (proj1 (get_pixmap_host_icon posix_host {[skin_file]}
                  globals_with_resource "trash.png" eq_refl)).
Defined.

(** C8: [get_icon] returns an icon for every argument: the empty icon for
    [None] and for the empty string; for any other name the icon of the
    pixmap [get_pixmap] found, and the host's icon for the name when it
    found none. *)
Theorem get_icon_never_fails
    (host : Host) (fs : gset string) (globals : Globals) :
  value (get_icon host fs globals None) = QIcon_empty
  ∧ value (get_icon host fs globals (Some "")) = QIcon_empty
  ∧ ∀ icon_name, icon_name ≠ "" →
      (value (get_pixmap host fs globals icon_name) = None →
       value (get_icon host fs globals (Some icon_name))
       = QIcon_of_file (I host icon_name))
      ∧ (∀ pixmap,
           value (get_pixmap host fs globals icon_name) = Some pixmap →
           value (get_icon host fs globals (Some icon_name))
           = QIcon_of_pixmap pixmap).
Proof.
  refine (conj eq_refl (conj eq_refl _)).
  intros icon_name Hne.
  rewrite get_icon_of_pixmap by exact Hne.
  split.
  - intros ->. reflexivity.
  - intros pixmap ->. reflexivity.
Qed.

Lemma get_icon_never_fails_witness :
  value (get_icon posix_host ∅ globals_without_resource (Some "images/x.png"))
  = QIcon_of_file "/usr/share/calibre/images/images/x.png"
  ∧ value (get_icon posix_host ∅ globals_with_resource (Some "images/x.png"))
    = QIcon_of_pixmap (PixmapFromData [Byte.x89; Byte.x50]).
Proof.
  split.
  - apply (proj1 (proj2 (proj2 (get_icon_never_fails posix_host ∅
                                  globals_without_resource))
                    "images/x.png" ltac:(discriminate))).
    vm_compute. reflexivity.
  - apply (proj2 (proj2 (proj2 (get_icon_never_fails posix_host ∅
                                  globals_with_resource))
                    "images/x.png" ltac:(discriminate))).
    vm_compute. reflexivity.
Defined.

(** ** Dialogs that remember their geometry *)

(** C2: closing a dialog writes the serialized geometry of its window to
    the preference store under its [unique_pref_name] and touches no other
    key; a dialog constructed afterwards with the same key restores, in
    [resize_dialog], exactly that blob, so that its window is the closed
    one's whenever Qt's [restoreGeometry] inverts [saveGeometry]; and a
    dialog constructed over a store without its key is resized to its
    [sizeHint]. *)
Theorem geometry_round_trip
    {Window : Type}
    (saveGeometry : Window → list Byte.byte)
    (restoreGeometry : list Byte.byte → Window → Window)
    (sizeHint : Window → Z * Z) (resize : Z * Z → Window → Window)
    (closing : SizePersistedDialog Window)
    (gprefs : gmap string pyobj) (w0 : Window) :
  let key := unique_pref_name closing in
  let blob := saveGeometry (window closing) in
  let gprefs' := dialog_closing saveGeometry closing gprefs in
  let reopened := SizePersistedDialog_init w0 key gprefs' in
  gprefs' !! key = Some (PyByteArray blob)
  ∧ (∀ other, other ≠ key → gprefs' !! other = gprefs !! other)
  ∧ resize_dialog restoreGeometry sizeHint resize reopened
    = Ok (mkDialog key (PyByteArray blob) (restoreGeometry blob w0))
  ∧ ((∀ w w', restoreGeometry (saveGeometry w) w' = w) →
     window <$> resize_dialog restoreGeometry sizeHint resize reopened
     = Ok (window closing))
  ∧ (∀ (unseen : string) (store : gmap string pyobj),
       store !! unseen = None →
       resize_dialog restoreGeometry sizeHint resize
         (SizePersistedDialog_init w0 unseen store)
       = Ok (mkDialog unseen PyNone (resize (sizeHint w0) w0))).
Proof.
  intros key blob gprefs' reopened.
  assert (gprefs' !! key = Some (PyByteArray blob)) as Hsaved.
  { unfold gprefs', dialog_closing. apply lookup_insert_eq. }
  assert (resize_dialog restoreGeometry sizeHint resize reopened
          = Ok (mkDialog key (PyByteArray blob) (restoreGeometry blob w0)))
    as Hrestored.
  { unfold reopened, SizePersistedDialog_init, resize_dialog, gprefs_get.
    cbn. rewrite Hsaved. reflexivity. }
  refine (conj Hsaved (conj _ (conj Hrestored (conj _ _)))).
  - intros other Hother. unfold gprefs', dialog_closing.
    apply lookup_insert_ne. intros Heq. apply Hother. symmetry. exact Heq.
  - intros Hqt. rewrite Hrestored. cbn. unfold blob. rewrite Hqt. reflexivity.
  - intros unseen store Hunseen.
    unfold SizePersistedDialog_init, resize_dialog, gprefs_get.
    cbn. rewrite Hunseen. reflexivity.
Qed.

Lemma geometry_round_trip_witness :
  let closing :=
    mkDialog "Prefs Viewer dialog" PyNone
      (SampleToolkit.mkWindow Byte.x0a Byte.x14 Byte.x50 Byte.x3c) in
  let w0 := SampleToolkit.mkWindow Byte.x00 Byte.x00 Byte.x01 Byte.x01 in
  window <$>
    resize_dialog SampleToolkit.restoreGeometry SampleToolkit.sizeHint
      SampleToolkit.resize
      (SizePersistedDialog_init w0 "Prefs Viewer dialog"
         (dialog_closing SampleToolkit.saveGeometry closing ∅))
  = Ok (window closing)
  ∧ resize_dialog SampleToolkit.restoreGeometry SampleToolkit.sizeHint
      SampleToolkit.resize
      (SizePersistedDialog_init w0 "Keyboard shortcut dialog"
         (dialog_closing SampleToolkit.saveGeometry closing ∅))
    = Ok (mkDialog "Keyboard shortcut dialog" PyNone
            (SampleToolkit.mkWindow Byte.x00 Byte.x00 Byte.x40 Byte.x30)).
Proof.
  intros closing w0.
  pose proof (geometry_round_trip SampleToolkit.saveGeometry
                SampleToolkit.restoreGeometry SampleToolkit.sizeHint
                SampleToolkit.resize closing ∅ w0) as H.
  cbv zeta in H.
  destruct H as (_ & _ & _ & Hround & Hunseen).
  split.
  - apply Hround. intros [x y wd ht] w'. reflexivity.
  - apply Hunseen. vm_compute. reflexivity.
Defined.

(** ** Preferences viewer *)

Lemma delete_all_lookup (keys : list string) (prefs : gmap string pyobj) :
  NoDup keys →
  (∀ k, k ∈ keys → is_Some (prefs !! k)) →
  ∃ prefs',
    delete_all keys prefs = Ok prefs'
    ∧ ∀ k, prefs' !! k = if decide (k ∈ keys) then None else prefs !! k.
Proof.
  revert prefs.
  induction keys as [| k0 keys IH]; intros prefs Hnodup Hin.
  - exists prefs. split; [reflexivity |].
    intros k. destruct (decide (k ∈ [])) as [Hk | _]; [| reflexivity].
    by apply elem_of_nil in Hk.
  - apply NoDup_cons in Hnodup as [Hfresh Hnodup].
    destruct (Hin k0 (list_elem_of_here _ _)) as [v Hv].
    destruct (IH (delete k0 prefs) Hnodup) as (prefs' & Hrun & Hlook).
    { intros k Hk. rewrite lookup_delete_ne.
      - apply Hin. by apply list_elem_of_further.
      - intros ->. contradiction. }
    exists prefs'. split.
    + cbn. unfold delitem. rewrite Hv. exact Hrun.
    + intros k. rewrite Hlook.
      destruct (decide (k = k0)) as [-> | Hne].
      * rewrite lookup_delete_eq.
        destruct (decide (k0 ∈ k0 :: keys)) as [_ | Hout].
        -- destruct (decide (k0 ∈ keys)); reflexivity.
        -- exfalso. apply Hout. apply list_elem_of_here.
      * rewrite lookup_delete_ne by congruence.
        destruct (decide (k ∈ keys)) as [Hk | Hk];
          destruct (decide (k ∈ k0 :: keys)) as [Hk' | Hk']; try reflexivity.
        -- exfalso. apply Hk'. by apply list_elem_of_further.
        -- exfalso. apply elem_of_cons in Hk' as [? | ?]; contradiction.
Qed.

Lemma namespace_keys_spec (prefix : string) (prefs : gmap string pyobj) :
  let keys :=
    filter (λ k, startswith k prefix = true)
           (PrefsViewerDialog.iterkeys prefs) in
  NoDup keys
  ∧ ∀ k, k ∈ keys ↔ startswith k prefix = true ∧ is_Some (prefs !! k).
Proof.
  intros keys. split.
  - unfold keys. apply NoDup_filter. apply NoDup_fst_map_to_list.
  - intros k. unfold keys, PrefsViewerDialog.iterkeys.
    rewrite list_elem_of_filter, list_elem_of_fmap.
    split.
    + intros [Hpre [[k' v] [-> Hkv]]]. split; [exact Hpre |].
      apply elem_of_map_to_list in Hkv. eexists. exact Hkv.
    + intros [Hpre [v Hv]]. split; [exact Hpre |].
      exists (k, v). split; [reflexivity |].
      by apply elem_of_map_to_list.
Qed.

(** C4: once the prompt is confirmed, [_clear_settings] completes without
    raising, and in the store it leaves a key is absent when it starts with
    ['namespaced:<namespace>:'] and is bound as before when it does not. *)
Theorem clear_settings_removes_exactly_namespace
    (self : PrefsViewerDialog.t) (restart_clicked : bool) :
  ∃ self',
    PrefsViewerDialog._clear_settings true restart_clicked self = Ok self'
    ∧ PrefsViewerDialog.namespace self' = PrefsViewerDialog.namespace self
    ∧ ∀ k : string,
        PrefsViewerDialog.db_prefs self' !! k
        = if startswith k ("namespaced:" +:+ PrefsViewerDialog.namespace self
                           +:+ ":")
          then None
          else PrefsViewerDialog.db_prefs self !! k.
Proof.
  unfold PrefsViewerDialog._clear_settings. cbn [negb].
  set (prefix := PrefsViewerDialog._get_ns_prefix self).
  destruct (namespace_keys_spec prefix (PrefsViewerDialog.db_prefs self))
    as [Hnodup Hkeys].
  cbv zeta in Hnodup, Hkeys.
  destruct (delete_all_lookup _ (PrefsViewerDialog.db_prefs self) Hnodup)
    as (prefs' & Hrun & Hlook).
  { intros k Hk. apply Hkeys in Hk. tauto. }
  rewrite Hrun. cbn.
  eexists. split; [reflexivity |]. split; [reflexivity |].
  intros k. cbn. rewrite Hlook.
  change ("namespaced:" +:+ PrefsViewerDialog.namespace self +:+ ":")
    with prefix.
  destruct (decide (k ∈ _)) as [Hk | Hk].
  - apply Hkeys in Hk as [-> _]. reflexivity.
  - destruct (startswith k prefix) eqn:Hpre; [| reflexivity].
    destruct (PrefsViewerDialog.db_prefs self !! k) as [v |] eqn:Hv;
      [| reflexivity].
    exfalso. apply Hk. apply Hkeys. split; [exact Hpre | by eexists].
Qed.

(** C9: when the prompt is declined, [_clear_settings] returns at once:
    the store, and the rest of the dialog, are as they were. *)
Theorem clear_settings_declined_changes_nothing
    (self : PrefsViewerDialog.t) (restart_clicked : bool) :
  PrefsViewerDialog._clear_settings false restart_clicked self = Ok self
  ∧ PrefsViewerDialog.db_prefs
      <$> PrefsViewerDialog._clear_settings false restart_clicked self
    = Ok (PrefsViewerDialog.db_prefs self).
Proof. split; reflexivity. Qed.

Example clear_settings_sample :
  PrefsViewerDialog._clear_settings true false sample_viewer
  = Ok {| PrefsViewerDialog.namespace := "EpubSplit";
          PrefsViewerDialog.db_prefs :=
            <["namespaced:EpubSplitX:options" := PyInt 2]>
              (<["field_metadata" := PyInt 3]> ∅);
          PrefsViewerDialog.keys_list := [];
          PrefsViewerDialog.closed := true;
          PrefsViewerDialog.quit_restart := false |}.
Proof. vm_compute. reflexivity. Qed.

Example populate_settings_sample :
  PrefsViewerDialog.keys_list
    (PrefsViewerDialog._populate_settings sample_viewer) = [""; "options"].
Proof. vm_compute. reflexivity. Qed.

(** * Further properties of the module *)

(** ** Strings *)

Lemma append_nil (s : string) : "" +:+ s = s.
Proof. reflexivity. Qed.

Lemma append_cons (c : ascii) (a b : string) :
  String c a +:+ b = String c (a +:+ b).
Proof. reflexivity. Qed.

Ltac string_simpl :=
  repeat (rewrite ?append_nil, ?append_cons; cbn -[String.append]).

Lemma startswith_nil (s : string) : startswith s "" = true.
Proof. destruct s; reflexivity. Qed.

Lemma append_assoc (a b c : string) : (a +:+ b) +:+ c = a +:+ (b +:+ c).
Proof.
  induction a as [| x a IH]; string_simpl; [reflexivity | by rewrite IH].
Qed.

Lemma startswith_append (p s : string) : startswith (p +:+ s) p = true.
Proof.
  induction p as [| c p IH]; string_simpl; [apply startswith_nil |].
  rewrite Ascii.eqb_refl. exact IH.
Qed.

Lemma startswith_append_cancel (a s p : string) :
  startswith (a +:+ s) (a +:+ p) = startswith s p.
Proof.
  induction a as [| c a IH]; string_simpl; [reflexivity |].
  rewrite Ascii.eqb_refl. exact IH.
Qed.

Lemma startswith_shorter (s p q : string) :
  startswith s (p +:+ q) = true → startswith s p = true.
Proof.
  revert s. induction p as [| c p IH]; intros s H; [apply startswith_nil |].
  rewrite append_cons in H.
  destruct s as [| d s]; [discriminate |].
  cbn in H |- *.
  destruct (Ascii.eqb c d); [by apply IH | discriminate].
Qed.

Lemma startswith_drop (s p : string) :
  startswith s p = true → p +:+ str_drop (String.length p) s = s.
Proof.
  revert s. induction p as [| c p IH]; intros s H; [reflexivity |].
  destruct s as [| d s]; [discriminate |].
  cbn in H.
  destruct (Ascii.eqb_spec c d) as [-> |]; [| discriminate].
  rewrite append_cons. cbn -[String.append]. by rewrite IH.
Qed.

Lemma str_drop_append (p s : string) :
  str_drop (String.length p) (p +:+ s) = s.
Proof.
  induction p as [| c p IH]; string_simpl; [reflexivity | exact IH].
Qed.

Lemma append_inj_r (p a b : string) : p +:+ a = p +:+ b → a = b.
Proof.
  induction p as [| c p IH]; string_simpl; [done |]. intros [= H]. by apply IH.
Qed.

Lemma replace_from_skip (old new p s : string) :
  replace_from old new (String.length p) (p +:+ s) = replace_from old new 0 s.
Proof.
  induction p as [| c p IH]; string_simpl; [| exact IH].
  destruct s; reflexivity.
Qed.

Lemma str_replace_front (old new s : string) :
  old ≠ "" → str_replace (old +:+ s) old new = new +:+ str_replace s old new.
Proof.
  destruct old as [| c old]; [done |]. intros _.
  unfold str_replace. rewrite append_cons. cbn [replace_from].
  rewrite <- append_cons.
  rewrite startswith_append.
  replace (String.length (String c old) - 1)%nat with (String.length old)
    by (cbn; lia).
  by rewrite replace_from_skip.
Qed.


Lemma replace_from_absent (old new s : string) :
  str_contains s old = false → replace_from old new 0 s = s.
Proof.
  induction s as [| c s IH]; [reflexivity |].
  cbn [str_contains replace_from]. intros H.
  apply orb_false_iff in H as [Hhere Hlater].
  rewrite Hhere, IH by exact Hlater. reflexivity.
Qed.

(** ** Icon and pixmap resolution, continued *)

(** X1: [get_pixmap] returns [None] in one situation only: the name is
    under ['images/'], the skin folder has no file for it, and the resource
    map has no entry for it. *)
Theorem get_pixmap_none_iff
    (host : Host) (fs : gset string) (globals : Globals) (icon_name : string) :
  value (get_pixmap host fs globals icon_name) = None
  ↔ startswith icon_name "images/" = true
    ∧ no_skin_image host fs globals icon_name
    ∧ plugin_icon_resources globals !! icon_name = None.
Proof.
  split.
  - intros Hnone.
    destruct (startswith icon_name "images/") eqn:Hpre.
    + assert (no_skin_image host fs globals icon_name) as Hskin.
      { intros pn Hpn Hne Hin.
        rewrite (get_pixmap_skin host fs globals icon_name pn) in Hnone
          by assumption.
        discriminate. }
      refine (conj eq_refl (conj Hskin _)).
      rewrite get_pixmap_no_skin in Hnone by assumption.
      destruct (plugin_icon_resources globals !! icon_name);
        [discriminate | reflexivity].
    + unfold get_pixmap in Hnone. rewrite Hpre in Hnone. discriminate.
  - intros (Hpre & Hskin & Hres).
    rewrite get_pixmap_no_skin by assumption.
    rewrite Hres. reflexivity.
Qed.



(** X3: the subscript [plugin_icon_resources[icon_name]] is evaluated only
    for a key the map has, so that [get_pixmap] cannot raise [KeyError]:
    every read in its access log is of a bound name. *)
Theorem get_pixmap_reads_bound_resource
    (host : Host) (fs : gset string) (globals : Globals)
    (icon_name read : string) :
  ResourceMapRead read ∈ accesses (get_pixmap host fs globals icon_name) →
  read = icon_name ∧ is_Some (plugin_icon_resources globals !! icon_name).
Proof.
  unfold get_pixmap.
  destruct (startswith icon_name "images/"); cbn [negb].
  - rewrite accesses_bind.
    set (skin := match plugin_name globals with
                 | Some pn => _
                 | None => _
                 end).
    assert (ResourceMapRead read ∉ accesses skin) as Hskin.
    { unfold skin.
      destruct (plugin_name globals) as [pn |]; cbn; [| by apply not_elem_of_nil].
      destruct (negb (String.eqb pn "")); cbn; [| by apply not_elem_of_nil].
      intros Hin. apply list_elem_of_singleton in Hin. discriminate. }
    intros Hin. apply elem_of_app in Hin as [Hin | Hin]; [contradiction |].
    destruct (value skin) as [pixmap |]; cbn in Hin.
    + by apply elem_of_nil in Hin.
    + destruct (plugin_icon_resources globals !! icon_name) as [data |] eqn:Hres.
      * rewrite bool_decide_eq_true_2 in Hin by (by eexists).
        cbn in Hin.
        apply elem_of_cons in Hin as [Hin | Hin]; [discriminate |].
        apply list_elem_of_singleton in Hin. injection Hin as ->.
        split; [reflexivity | by eexists].
      * rewrite bool_decide_eq_false_2 in Hin by (intros [? ?]; discriminate).
        cbn in Hin. apply list_elem_of_singleton in Hin. discriminate.
  - cbn. intros Hin. apply list_elem_of_singleton in Hin. discriminate.
Qed.

Lemma get_pixmap_reads_bound_resource_witness :
  "images/x.png" = "images/x.png"
  ∧ is_Some (plugin_icon_resources globals_with_resource !! "images/x.png").
Proof.
  apply (get_pixmap_reads_bound_resource posix_host ∅ globals_with_resource
           "images/x.png" "images/x.png").
  vm_compute. apply list_elem_of_further, list_elem_of_further, list_elem_of_here.
Defined.

(** X4: while no plugin name is set ([None], as before
    [set_plugin_icon_resources] is called, or the empty string), the disk is
    not looked at: for a name under ['images/'] the result is the bundled
    resource or [None], and the log holds the resource-map accesses only. *)
Theorem get_pixmap_without_plugin_name
    (host : Host) (fs : gset string) (globals : Globals) (icon_name : string) :
  truthy_name (plugin_name globals) = false →
  startswith icon_name "images/" = true →
  get_pixmap host fs globals icon_name
  = match plugin_icon_resources globals !! icon_name with
    | Some data =>
        Log (Some (PixmapFromData data))
          [ResourceMapProbe icon_name; ResourceMapRead icon_name]
    | None => Log None [ResourceMapProbe icon_name]
    end.
Proof.
  intros Hname Hpre.
  unfold get_pixmap. rewrite Hpre. cbn [negb].
  rewrite Hname.
  assert (match plugin_name globals with
          | Some _ | None => mret None
          end = (mret None : Logged (option QPixmap))) as ->
    by (destruct (plugin_name globals); reflexivity).
  cbn.
  destruct (plugin_icon_resources globals !! icon_name) as [data |] eqn:Hres.
  - rewrite bool_decide_eq_true_2 by (by eexists). reflexivity.
  - rewrite bool_decide_eq_false_2 by (intros [? ?]; discriminate).
    reflexivity.
Qed.

Lemma get_pixmap_without_plugin_name_witness :
  get_pixmap posix_host {[skin_file]} initial_globals "images/x.png"
  = Log None [ResourceMapProbe "images/x.png"].
Proof.
  apply (get_pixmap_without_plugin_name posix_host {[skin_file]}
           initial_globals "images/x.png"); reflexivity.
Defined.

(** X5: the path probed in the skin folder drops the ['images/'] prefix of
    the icon name: a name ['images/' + rest] whose [rest] has no further
    ['images/'] is looked up as [rest] under the plugin's folder.  A second
    ['images/'] is dropped as well, so that ['images/images/' + rest] and
    ['images/' + rest] share one skin file. *)
Theorem local_image_path_strips_prefix
    (host : Host) (pn rest : string) :
  (str_contains rest "images/" = false →
   local_image_path host pn ("images/" +:+ rest)
   = os_path_join host (get_local_images_dir host (Some pn)) rest)
  ∧ local_image_path host pn ("images/" +:+ "images/" +:+ rest)
    = local_image_path host pn ("images/" +:+ rest).
Proof.
  unfold local_image_path. split.
  - intros Hrest.
    rewrite str_replace_front by discriminate.
    unfold str_replace. rewrite replace_from_absent by exact Hrest.
    reflexivity.
  - rewrite (str_replace_front "images/" "" ("images/" +:+ rest))
      by discriminate.
    reflexivity.
Qed.

Lemma local_image_path_strips_prefix_witness :
  local_image_path posix_host "P" ("images/" +:+ "x.png")
  = posix_join "/home/u/.config/calibre/resources/images/P" "x.png".
Proof.
  apply (proj1 (local_image_path_strips_prefix posix_host "P" "x.png")).
  reflexivity.
Defined.



(** ** Image and title layout *)

(** X7: the layout always holds the image label, the title label and a
    trailing stretch, in that order; the title label shows the title in a
    16-point font and the image label is capped at 32x32 with scaled
    contents.  The image label shows the pixmap [get_pixmap] found for the
    icon name, and none at all when it found none: the [library.png] pixmap
    loaded in that case is not put on the label. *)
Theorem image_title_layout_shape
    (host : Host) (fs : gset string) (globals : Globals)
    (icon_name title : string) :
  value (ImageTitleLayout.init host fs globals icon_name title)
  = [ItemWidget
       {| label_text := "";
          label_pixmap := value (get_pixmap host fs globals icon_name);
          label_maximumSize := Some (32, 32);
          label_scaledContents := true;
          label_pointSize := None |};
     ItemWidget
       {| label_text := title;
          label_pixmap := None;
          label_maximumSize := None;
          label_scaledContents := false;
          label_pointSize := Some 16 |};
     ItemStretch]
  ∧ accesses (ImageTitleLayout.init host fs globals icon_name title)
    = (accesses (get_pixmap host fs globals icon_name)
       ++ match value (get_pixmap host fs globals icon_name) with
          | None => [IconCachePath "library.png"]
          | Some _ => []
          end)%list.
Proof.
  unfold ImageTitleLayout.init.
  rewrite value_bind, accesses_bind.
  destruct (value (get_pixmap host fs globals icon_name)) as [pixmap |].
  - split; reflexivity.
  - split; reflexivity.
Qed.

(** ** Busy cursor *)

(** X8: around a block that leaves the override cursors as it found them,
    [busy_cursor] shows the wait cursor during the block and leaves the
    cursor stack as it was before, whether the block returns or raises; the
    block's outcome, an exception included, is passed on unchanged.  The
    whole is again such a block, so uses can be nested. *)
Theorem busy_cursor_restores
    {A : Type} (body : list CursorShape → result A * list CursorShape) :
  cursor_balanced body →
  (∀ stack,
     busy_cursor body stack = ((body (WaitCursor :: stack)).1, stack))
  ∧ cursor_balanced (busy_cursor body).
Proof.
  intros Hbody.
  assert (∀ stack,
            busy_cursor body stack = ((body (WaitCursor :: stack)).1, stack))
    as Hrun.
  { intros stack. unfold busy_cursor, setOverrideCursor.
    pose proof (Hbody (WaitCursor :: stack)) as Hstack.
    destruct (body (WaitCursor :: stack)) as [outcome stack'].
    cbn in Hstack. subst stack'. reflexivity. }
  split; [exact Hrun |].
  intros stack. rewrite Hrun. reflexivity.
Qed.

Lemma busy_cursor_restores_witness :
  busy_cursor (λ stack, (Raise KeyboardInterrupt : result unit, stack))
    [ArrowCursor]
  = (Raise KeyboardInterrupt, [ArrowCursor]).
Proof.
  apply (proj1 (busy_cursor_restores
                  (λ stack, (Raise KeyboardInterrupt : result unit, stack))
                  (λ stack, eq_refl))).
Defined.

(** ** Dialogs that remember their geometry, continued *)

(** X9: the last dialog closed under a key decides what is stored under
    it: closing two dialogs that share a key leaves the store as closing the
    second alone would.  Dialogs with different keys do not interfere: the
    order in which they close does not matter. *)
Theorem dialog_closing_last_write_wins
    {Window : Type} (saveGeometry : Window → list Byte.byte)
    (first second : SizePersistedDialog Window) (gprefs : gmap string pyobj) :
  (unique_pref_name first = unique_pref_name second →
   dialog_closing saveGeometry second
     (dialog_closing saveGeometry first gprefs)
   = dialog_closing saveGeometry second gprefs)
  ∧ (unique_pref_name first ≠ unique_pref_name second →
     dialog_closing saveGeometry second
       (dialog_closing saveGeometry first gprefs)
     = dialog_closing saveGeometry first
         (dialog_closing saveGeometry second gprefs)).
Proof.
  unfold dialog_closing. split.
  - intros ->. apply insert_insert_eq.
  - intros Hne. apply insert_insert_ne. congruence.
Qed.

Lemma dialog_closing_last_write_wins_witness :
  let first :=
    mkDialog "Prefs Viewer dialog" PyNone
      (SampleToolkit.mkWindow Byte.x0a Byte.x14 Byte.x50 Byte.x3c) in
  let second :=
    mkDialog "Prefs Viewer dialog" PyNone
      (SampleToolkit.mkWindow Byte.x01 Byte.x02 Byte.x03 Byte.x04) in
  let other :=
    mkDialog "Keyboard shortcut dialog" PyNone
      (SampleToolkit.mkWindow Byte.x05 Byte.x06 Byte.x07 Byte.x08) in
  dialog_closing SampleToolkit.saveGeometry second
    (dialog_closing SampleToolkit.saveGeometry first ∅)
  = dialog_closing SampleToolkit.saveGeometry second ∅
  ∧ dialog_closing SampleToolkit.saveGeometry other
      (dialog_closing SampleToolkit.saveGeometry first ∅)
    = dialog_closing SampleToolkit.saveGeometry first
        (dialog_closing SampleToolkit.saveGeometry other ∅).
Proof.
  intros first second other. split.
  - apply (proj1 (dialog_closing_last_write_wins SampleToolkit.saveGeometry
                    first second ∅)).
    reflexivity.
  - apply (proj2 (dialog_closing_last_write_wins SampleToolkit.saveGeometry
                    first other ∅)).
    discriminate.
Defined.

(** ** Table cell widgets, continued *)

(** X10: what a freshly built checkable item reports, for every pair of
    arguments: [None] exactly when [is_tristate] is true and [checked] is
    [None]; [True] exactly when [checked] is true; so a two-state item built
    with [checked=None] reports [False], as does a tristate item built with
    a false value other than [None]. *)
Theorem checkable_item_reports (checked is_tristate : pyobj) :
  let reported :=
    CheckableTableWidgetItem.get_boolean_value
      (CheckableTableWidgetItem.init checked is_tristate) in
  (reported = PyNone ↔ truthy is_tristate = true ∧ checked = PyNone)
  ∧ (reported = PyBool true ↔ truthy checked = true)
  ∧ (reported = PyBool false
     ↔ truthy checked = false
       ∧ (truthy is_tristate = false ∨ checked ≠ PyNone)).
Proof.
  unfold CheckableTableWidgetItem.init.
  destruct (truthy checked) eqn:Hc, (truthy is_tristate) eqn:Ht;
    destruct checked; cbn in *; try discriminate;
    repeat split; intros; try discriminate; try tauto; try congruence;
    intuition (try discriminate; try congruence).
Qed.

(** X11: the flags of a checkable item, for every pair of arguments: it is
    selectable, user-checkable and enabled, not editable, and carries the
    tristate flag exactly when [is_tristate] is true.  Its text is empty,
    and it is partially checked only if it carries the tristate flag. *)
Theorem checkable_item_flags (checked is_tristate : pyobj) :
  let it := CheckableTableWidgetItem.init checked is_tristate in
  item_text it = ""
  ∧ item_flags it = (if truthy is_tristate then 113 else 49)
  ∧ (∀ f, Qt.has_flag (item_flags it) f = true
          ↔ f = Qt.ItemIsSelectable ∨ f = Qt.ItemIsUserCheckable
            ∨ f = Qt.ItemIsEnabled
            ∨ (f = Qt.ItemIsTristate ∧ truthy is_tristate = true))
  ∧ (item_checkState it = Qt.PartiallyChecked →
     Qt.has_flag (item_flags it) Qt.ItemIsTristate = true).
Proof.
  unfold CheckableTableWidgetItem.init.
  destruct (truthy checked) eqn:Hc, (truthy is_tristate) eqn:Ht;
    destruct (is_None checked) eqn:Hn; cbn;
    (refine (conj eq_refl (conj eq_refl (conj _ _)));
     [ intros f; destruct f; cbn; split; intros H;
       try discriminate; auto 6;
       repeat (destruct H as [H | H]); try discriminate;
       destruct H; discriminate
     | intros H; try discriminate; reflexivity ]).
Qed.

Lemma checkable_item_flags_witness :
  Qt.has_flag
    (item_flags (CheckableTableWidgetItem.init PyNone (PyBool true)))
    Qt.ItemIsTristate = true.
Proof.
  apply (proj2 (proj2 (proj2
           (checkable_item_flags PyNone (PyBool true))))).
  reflexivity.
Defined.

(** ** Preferences viewer, continued *)

Lemma map_list_fmap {A B} (f : A → B) (l : list A) : map f l = f <$> l.
Proof. induction l as [| x l IH]; cbn; [reflexivity | by rewrite IH]. Qed.

#[local] Instance string_leb_total :
  Total (λ a b : string, Is_true (String.leb a b)).
Proof.
  intros a b. destruct (String.leb_total a b) as [H | H]; rewrite H; auto.
Qed.

(** The keys of the namespace, as [_populate_settings] and
    [_clear_settings] collect them. *)
Lemma populate_settings_keys (self : PrefsViewerDialog.t) :
  PrefsViewerDialog.keys_list (PrefsViewerDialog._populate_settings self)
  ≡ₚ str_drop (String.length (PrefsViewerDialog._get_ns_prefix self))
       <$> filter (λ k, startswith k (PrefsViewerDialog._get_ns_prefix self)
                        = true)
             (PrefsViewerDialog.iterkeys (PrefsViewerDialog.db_prefs self)).
Proof.
  unfold PrefsViewerDialog._populate_settings. cbn.
  rewrite merge_sort_Permutation, map_list_fmap. reflexivity.
Qed.

Lemma populate_settings_elem_of (self : PrefsViewerDialog.t) (key : string) :
  key ∈ PrefsViewerDialog.keys_list (PrefsViewerDialog._populate_settings self)
  ↔ is_Some (PrefsViewerDialog.db_prefs self
               !! (PrefsViewerDialog._get_ns_prefix self +:+ key)).
Proof.
  rewrite populate_settings_keys, list_elem_of_fmap.
  set (prefix := PrefsViewerDialog._get_ns_prefix self).
  destruct (namespace_keys_spec prefix (PrefsViewerDialog.db_prefs self))
    as [_ Hkeys].
  cbv zeta in Hkeys.
  split.
  - intros (k & -> & Hk). apply Hkeys in Hk as [Hpre Hsome].
    by rewrite startswith_drop.
  - intros Hsome. exists (prefix +:+ key). split.
    + by rewrite str_drop_append.
    + apply Hkeys. split; [apply startswith_append | exact Hsome].
Qed.

(** X12: [_populate_settings] leaves the store alone and fills the list
    with the namespace's keys, prefix removed: an entry is listed exactly
    when the prefix followed by it is a key of the store, no entry is listed
    twice, and the list is in ascending order. *)
Theorem populate_settings_lists_namespace (self : PrefsViewerDialog.t) :
  let self' := PrefsViewerDialog._populate_settings self in
  PrefsViewerDialog.db_prefs self' = PrefsViewerDialog.db_prefs self
  ∧ PrefsViewerDialog.namespace self' = PrefsViewerDialog.namespace self
  ∧ (∀ key,
       key ∈ PrefsViewerDialog.keys_list self'
       ↔ is_Some (PrefsViewerDialog.db_prefs self
                    !! ("namespaced:" +:+ PrefsViewerDialog.namespace self
                        +:+ ":" +:+ key)))
  ∧ NoDup (PrefsViewerDialog.keys_list self')
  ∧ Sorted (λ a b, Is_true (String.leb a b))
      (PrefsViewerDialog.keys_list self').
Proof.
  intros self'.
  refine (conj eq_refl (conj eq_refl (conj _ (conj _ _)))).
  - intros key. unfold self'. rewrite populate_settings_elem_of.
    unfold PrefsViewerDialog._get_ns_prefix.
    by rewrite !append_assoc.
  - unfold self'. rewrite populate_settings_keys.
    set (prefix := PrefsViewerDialog._get_ns_prefix self).
    destruct (namespace_keys_spec prefix (PrefsViewerDialog.db_prefs self))
      as [Hnodup Hkeys].
    cbv zeta in Hnodup, Hkeys.
    apply NoDup_fmap_2_strong; [| exact Hnodup].
    intros k1 k2 Hk1 Hk2 Heq.
    apply Hkeys in Hk1 as [Hp1 _]. apply Hkeys in Hk2 as [Hp2 _].
    rewrite <- (startswith_drop k1 prefix Hp1),
            <- (startswith_drop k2 prefix Hp2).
    by rewrite Heq.
  - unfold self', PrefsViewerDialog._populate_settings. cbn.
    apply (Sorted_merge_sort _).
Qed.

(** What a confirmed [_clear_settings] returns, spelled out. *)
Lemma clear_settings_confirmed (self : PrefsViewerDialog.t) (restart : bool) :
  ∃ prefs',
    (∀ k, prefs' !! k
          = if startswith k (PrefsViewerDialog._get_ns_prefix self)
            then None
            else PrefsViewerDialog.db_prefs self !! k)
    ∧ PrefsViewerDialog._clear_settings true restart self
      = Ok {| PrefsViewerDialog.namespace := PrefsViewerDialog.namespace self;
              PrefsViewerDialog.db_prefs := prefs';
              PrefsViewerDialog.keys_list := [];
              PrefsViewerDialog.closed := true;
              PrefsViewerDialog.quit_restart :=
                restart || PrefsViewerDialog.quit_restart self |}.
Proof.
  set (prefix := PrefsViewerDialog._get_ns_prefix self).
  destruct (namespace_keys_spec prefix (PrefsViewerDialog.db_prefs self))
    as [Hnodup Hkeys].
  cbv zeta in Hnodup, Hkeys.
  destruct (delete_all_lookup _ (PrefsViewerDialog.db_prefs self) Hnodup)
    as (prefs' & Hrun & Hlook).
  { intros k Hk. apply Hkeys in Hk. tauto. }
  assert (∀ k, prefs' !! k
               = if startswith k prefix then None
                 else PrefsViewerDialog.db_prefs self !! k) as Hspec.
  { intros k. rewrite Hlook.
    destruct (decide (k ∈ _)) as [Hk | Hk].
    - apply Hkeys in Hk as [-> _]. reflexivity.
    - destruct (startswith k prefix) eqn:Hpre; [| reflexivity].
      destruct (PrefsViewerDialog.db_prefs self !! k) as [v |] eqn:Hv;
        [| reflexivity].
      exfalso. apply Hk. apply Hkeys. split; [exact Hpre | by eexists]. }
  exists prefs'. split; [exact Hspec |].
  set (cleared :=
         {| PrefsViewerDialog.namespace := PrefsViewerDialog.namespace self;
            PrefsViewerDialog.db_prefs := prefs';
            PrefsViewerDialog.keys_list := PrefsViewerDialog.keys_list self;
            PrefsViewerDialog.closed := PrefsViewerDialog.closed self;
            PrefsViewerDialog.quit_restart :=
              PrefsViewerDialog.quit_restart self |}).
  assert (PrefsViewerDialog.keys_list
            (PrefsViewerDialog._populate_settings cleared) = []) as Hempty.
  { apply elem_of_nil_inv. intros key Hkey.
    apply populate_settings_elem_of in Hkey as [v Hv].
    change (PrefsViewerDialog.db_prefs cleared) with prefs' in Hv.
    change (PrefsViewerDialog._get_ns_prefix cleared) with prefix in Hv.
    rewrite Hspec, startswith_append in Hv. discriminate. }
  transitivity
    (Ok {| PrefsViewerDialog.namespace := PrefsViewerDialog.namespace self;
           PrefsViewerDialog.db_prefs := prefs';
           PrefsViewerDialog.keys_list :=
             PrefsViewerDialog.keys_list
               (PrefsViewerDialog._populate_settings cleared);
           PrefsViewerDialog.closed := true;
           PrefsViewerDialog.quit_restart :=
             restart || PrefsViewerDialog.quit_restart self |}).
  - unfold PrefsViewerDialog._clear_settings. cbn [negb].
    fold prefix. rewrite Hrun.
    destruct restart; reflexivity.
  - rewrite Hempty. reflexivity.
Qed.

(** X13: a confirmed [_clear_settings] ends with an empty key list and a
    closed dialog, and asks the host to restart exactly when the user
    pressed the restart button (or a restart had been asked for before). *)
Theorem clear_settings_leaves_empty_list
    (self : PrefsViewerDialog.t) (restart_clicked : bool) :
  ∃ self',
    PrefsViewerDialog._clear_settings true restart_clicked self = Ok self'
    ∧ PrefsViewerDialog.keys_list self' = []
    ∧ PrefsViewerDialog.closed self' = true
    ∧ PrefsViewerDialog.quit_restart self'
      = restart_clicked || PrefsViewerDialog.quit_restart self.
Proof.
  destruct (clear_settings_confirmed self restart_clicked)
    as (prefs' & _ & Hrun).
  eexists. split; [exact Hrun |]. cbn. auto.
Qed.

(** X14: clearing is idempotent on the store: a second confirmed
    [_clear_settings] finds nothing left to delete. *)
Theorem clear_settings_idempotent
    (self : PrefsViewerDialog.t) (restart1 restart2 : bool) :
  ∃ once twice,
    PrefsViewerDialog._clear_settings true restart1 self = Ok once
    ∧ PrefsViewerDialog._clear_settings true restart2 once = Ok twice
    ∧ PrefsViewerDialog.db_prefs twice = PrefsViewerDialog.db_prefs once.
Proof.
  destruct (clear_settings_confirmed self restart1) as (prefs1 & H1 & Hrun1).
  eexists. rewrite Hrun1.
  match goal with
  | |- ∃ twice, Ok ?once = _ ∧ _ =>
      destruct (clear_settings_confirmed once restart2)
        as (prefs2 & H2 & Hrun2)
  end.
  eexists. split; [reflexivity |]. split; [exact Hrun2 |].
  cbn. apply map_eq. intros k. rewrite H2. cbn.
  change (PrefsViewerDialog._get_ns_prefix _)
    with (PrefsViewerDialog._get_ns_prefix self).
  rewrite H1.
  destruct (startswith k (PrefsViewerDialog._get_ns_prefix self));
    reflexivity.
Qed.

Lemma startswith_cons (b a : ascii) (s p : string) :
  startswith (String b s) (String a p)
  = if Ascii.eqb a b then startswith s p else false.
Proof. reflexivity. Qed.

Lemma no_colon_cons (c : ascii) (s : string) :
  no_colon (String c s) = negb (Ascii.eqb c ":") && no_colon s.
Proof. reflexivity. Qed.

Lemma no_colon_prefix (ns ns' rest : string) :
  no_colon ns = true → no_colon ns' = true →
  startswith (ns' +:+ ":" +:+ rest) (ns +:+ ":") = true → ns' = ns.
Proof.
  revert ns'. induction ns as [| c ns IH]; intros ns' Hns Hns' Hpre.
  - destruct ns' as [| c' ns']; [reflexivity |].
    rewrite append_nil, append_cons in Hpre.
    rewrite startswith_cons, Ascii.eqb_sym in Hpre.
    rewrite no_colon_cons in Hns'.
    destruct (Ascii.eqb c' ":"); [discriminate Hns' | discriminate Hpre].
  - rewrite no_colon_cons in Hns. apply andb_true_iff in Hns as [Hc Hns].
    destruct ns' as [| c' ns'].
    + rewrite append_nil, !append_cons in Hpre.
      rewrite startswith_cons in Hpre.
      destruct (Ascii.eqb c ":"); [discriminate Hc | discriminate Hpre].
    + rewrite !append_cons in Hpre. rewrite startswith_cons in Hpre.
      rewrite no_colon_cons in Hns'.
      apply andb_true_iff in Hns' as [_ Hns'].
      destruct (Ascii.eqb c c') eqn:Hcc; [| discriminate Hpre].
      apply Ascii.eqb_eq in Hcc as ->.
      f_equal. by apply IH.
Qed.

(** X15: namespaces whose names have no colon are isolated from each
    other: clearing one leaves every key of another as it was. *)
Theorem clear_settings_spares_other_namespace
    (self : PrefsViewerDialog.t) (restart_clicked : bool)
    (other key : string) :
  no_colon (PrefsViewerDialog.namespace self) = true →
  no_colon other = true →
  other ≠ PrefsViewerDialog.namespace self →
  ∃ self',
    PrefsViewerDialog._clear_settings true restart_clicked self = Ok self'
    ∧ PrefsViewerDialog.db_prefs self'
        !! ("namespaced:" +:+ other +:+ ":" +:+ key)
      = PrefsViewerDialog.db_prefs self
          !! ("namespaced:" +:+ other +:+ ":" +:+ key).
Proof.
  intros Hns Hother Hne.
  destruct (clear_settings_confirmed self restart_clicked)
    as (prefs' & Hspec & Hrun).
  eexists. split; [exact Hrun |]. cbn. rewrite Hspec.
  unfold PrefsViewerDialog._get_ns_prefix.
  rewrite startswith_append_cancel.
  destruct (startswith _ _) eqn:Hpre; [| reflexivity].
  exfalso. apply Hne. by eapply no_colon_prefix.
Qed.

(** X16: a namespace is not isolated from the namespaces named after it
    with a colon: clearing [ns] also removes every key of a namespace
    [ns + ':' + sub]. *)
Theorem clear_settings_takes_nested_namespace
    (self : PrefsViewerDialog.t) (restart_clicked : bool) (sub key : string) :
  ∃ self',
    PrefsViewerDialog._clear_settings true restart_clicked self = Ok self'
    ∧ PrefsViewerDialog.db_prefs self'
        !! ("namespaced:" +:+ (PrefsViewerDialog.namespace self +:+ ":" +:+ sub)
            +:+ ":" +:+ key)
      = None.
Proof.
  destruct (clear_settings_confirmed self restart_clicked)
    as (prefs' & Hspec & Hrun).
  eexists. split; [exact Hrun |]. cbn. rewrite Hspec.
  unfold PrefsViewerDialog._get_ns_prefix.
  rewrite startswith_append_cancel, !append_assoc.
  rewrite <- (append_assoc (PrefsViewerDialog.namespace self) ":").
  by rewrite startswith_append.
Qed.

Lemma clear_settings_spares_other_namespace_witness :
  ∃ self',
    PrefsViewerDialog._clear_settings true false sample_viewer = Ok self'
    ∧ PrefsViewerDialog.db_prefs self'
        !! ("namespaced:" +:+ "EpubSplitX" +:+ ":" +:+ "options")
      = PrefsViewerDialog.db_prefs sample_viewer
          !! ("namespaced:" +:+ "EpubSplitX" +:+ ":" +:+ "options").
Proof.
  apply (clear_settings_spares_other_namespace sample_viewer false
           "EpubSplitX" "options").
  - reflexivity.
  - reflexivity.
  - discriminate.
Defined.

(** ** Preferences viewer: showing a value *)



(** ** Keyboard shortcut dialog *)

Section KeyboardConfigProperties.

Context {Window ShortcutConfig Keyboard : Type}.
Variable saveGeometry : Window → list Byte.byte.
Variable restoreGeometry : list Byte.byte → Window → Window.
Variable sizeHint : Window → Z * Z.
Variable resize : Z * Z → Window → Window.
Variable widget_new : ShortcutConfig.
Variable widget_initialize : Keyboard → ShortcutConfig → ShortcutConfig.
Variable widget_highlight : string → ShortcutConfig → ShortcutConfig.
Variable widget_commit : ShortcutConfig → Keyboard → Keyboard.

Lemma keyboard_dialog_init_saved
    (w0 : Window) (app : AppState Keyboard) (group_name : string)
    (blob : list Byte.byte) :
  app_gprefs app !! "Keyboard shortcut dialog" = Some (PyByteArray blob) →
  KeyboardConfigDialog_init restoreGeometry sizeHint resize widget_new
    widget_initialize widget_highlight w0 app group_name
  = Ok {| kb_base :=
            mkDialog "Keyboard shortcut dialog" (PyByteArray blob)
              (restoreGeometry blob w0);
          kb_widget :=
            widget_highlight group_name
              (widget_initialize (app_keyboard app) widget_new);
          kb_group_name := group_name;
          kb_result := None |}.
Proof.
  intros Hsaved.
  unfold KeyboardConfigDialog_init, SizePersistedDialog_init, gprefs_get.
  rewrite Hsaved. reflexivity.
Qed.

(** X18: the keyboard dialog stores its geometry under
    ['Keyboard shortcut dialog'] whichever button closes it, so the next
    one opens with the geometry of the one closed, restored from that blob.
    Only OK touches the shortcuts: Cancel leaves the keyboard registry as
    it was, OK replaces it by what the editor commits. *)
Theorem keyboard_dialog_buttons
    (self : KeyboardConfigDialog Window ShortcutConfig)
    (app : AppState Keyboard) (w1 : Window) (group_name : string) :
  unique_pref_name (kb_base self) = "Keyboard shortcut dialog" →
  let cancelled := KeyboardConfigDialog_reject saveGeometry self app in
  let committed :=
    KeyboardConfigDialog_commit saveGeometry widget_commit self app in
  let blob := saveGeometry (window (kb_base self)) in
  app_keyboard cancelled.2 = app_keyboard app
  ∧ app_keyboard committed.2 = widget_commit (kb_widget self) (app_keyboard app)
  ∧ kb_result cancelled.1 = Some Rejected
  ∧ kb_result committed.1 = Some Accepted
  ∧ app_gprefs cancelled.2 = app_gprefs committed.2
  ∧ (∀ app', app' = cancelled.2 ∨ app' = committed.2 →
       ∃ reopened,
         KeyboardConfigDialog_init restoreGeometry sizeHint resize widget_new
           widget_initialize widget_highlight w1 app' group_name
         = Ok reopened
         ∧ window (kb_base reopened) = restoreGeometry blob w1
         ∧ kb_widget reopened
           = widget_highlight group_name
               (widget_initialize (app_keyboard app') widget_new)).
Proof.
  intros Hkey cancelled committed blob.
  refine (conj eq_refl (conj eq_refl (conj eq_refl (conj eq_refl
            (conj eq_refl _))))).
  intros app' Happ'.
  assert (app_gprefs app' !! "Keyboard shortcut dialog"
          = Some (PyByteArray blob)) as Hsaved.
  { destruct Happ' as [-> | ->]; cbn; unfold dialog_closing;
      rewrite Hkey; apply lookup_insert_eq. }
  rewrite (keyboard_dialog_init_saved w1 app' group_name blob Hsaved).
  eexists. split; [reflexivity |]. split; reflexivity.
Qed.

End KeyboardConfigProperties.

Lemma keyboard_dialog_buttons_witness :
  let self :=
    mkKeyboardDialog
      (mkDialog "Keyboard shortcut dialog" PyNone
         (SampleToolkit.mkWindow Byte.x0a Byte.x14 Byte.x50 Byte.x3c))
      (SampleShortcuts.mkWidget [("Split", "Ctrl+S")] "EpubSplit")
      "EpubSplit" None in
  let app := mkApp (∅ : gmap string pyobj) ([] : SampleShortcuts.Keyboard) in
  let w1 := SampleToolkit.mkWindow Byte.x00 Byte.x00 Byte.x01 Byte.x01 in
  app_keyboard (KeyboardConfigDialog_reject SampleToolkit.saveGeometry
                  self app).2 = []
  ∧ app_keyboard (KeyboardConfigDialog_commit SampleToolkit.saveGeometry
                    SampleShortcuts.commit self app).2
    = [("Split", "Ctrl+S")]
  ∧ ∃ reopened,
      KeyboardConfigDialog_init SampleToolkit.restoreGeometry
        SampleToolkit.sizeHint SampleToolkit.resize SampleShortcuts.new
        SampleShortcuts.initialize SampleShortcuts.highlight_group w1
        (KeyboardConfigDialog_reject SampleToolkit.saveGeometry self app).2
        "EpubSplit"
      = Ok reopened
      ∧ window (kb_base reopened)
        = SampleToolkit.mkWindow Byte.x0a Byte.x14 Byte.x50 Byte.x3c.
Proof.
  intros self app w1.
  pose proof (keyboard_dialog_buttons SampleToolkit.saveGeometry
                SampleToolkit.restoreGeometry SampleToolkit.sizeHint
                SampleToolkit.resize SampleShortcuts.new
                SampleShortcuts.initialize SampleShortcuts.highlight_group
                SampleShortcuts.commit self app w1 "EpubSplit" eq_refl) as H.
  cbv zeta in H.
  destruct H as (Hcancel & Hcommit & _ & _ & _ & Hreopen).
  refine (conj Hcancel (conj Hcommit _)).
  destruct (Hreopen _ (or_introl eq_refl)) as (reopened & Hinit & Hwin & _).
  exists reopened. split; [exact Hinit | exact Hwin].
Defined.
